(** * CdkTestStack: the infrastructure topology declared by lib/cdk-test-stack.ts

    The stack's constructor is a straight-line program over the toolkit's
    constructs.  It is embedded here as a computation in a small
    state-and-exception monad: the state is the construct tree of the stack
    (constructs are shared mutable objects, so they live in a store and are
    passed around by reference), and an exception aborts construction.

    A construct is described by the properties the constructor gives it and
    by what the constructor's later method calls add to it: a record holds
    what this code declares.  What the toolkit adds on its own account
    (helper constructs beside a network, the permissions it grants to a role
    when an image, a project or a pipeline action is connected to it) and
    what it derives when the app is synthesized is outside this file. *)

From Stdlib Require Import ZArith String Ascii List.
From stdpp Require Import base option gmap strings list.

Set Warnings "-register-all".

Local Open Scope string_scope.
Local Open Scope Z_scope.

(** ** JavaScript values read from the deployment context *)

Inductive JsValue : Type :=
| JUndefined
| JNull
| JBool (b : bool)
| JNum (n : Z)
| JStr (s : string)
| JArr (items : list JsValue)
| JObj (props : list (string * JsValue)).

Inductive Exn : Type :=
| TypeError (msg : string)
| Error (msg : string).

Fixpoint ownProperty (props : list (string * JsValue)) (key : string) : JsValue :=
  match props with
  | [] => JUndefined
  | (k, v) :: rest => if String.eqb k key then v else ownProperty rest key
  end.

(** [v.key]: reading a property of [undefined] or [null] throws; a primitive
    or an array has no such named property. *)
Definition getProp (v : JsValue) (key : string) : Exn + JsValue :=
  match v with
  | JUndefined => inl (TypeError ("Cannot read properties of undefined (reading '" +:+ key +:+ "')"))
  | JNull => inl (TypeError ("Cannot read properties of null (reading '" +:+ key +:+ "')"))
  | JObj props => inr (ownProperty props key)
  | _ => inr JUndefined
  end.

(** A construct is referred to by its id, unique within the stack. *)
Definition ConstructId : Type := string.

(** ** The toolkit's resource descriptions, one module per imported package *)

Module ec2.

Inductive SubnetType : Type := PRIVATE_ISOLATED | PRIVATE_WITH_EGRESS | PUBLIC.

Record SubnetConfiguration : Type := {
  cidrMask : Z;
  name : string;
  subnetType : SubnetType;
}.

Record Vpc : Type := {
  cidr : string;
  maxAzs : Z;
  subnetConfiguration : list SubnetConfiguration;
}.

Inductive Protocol : Type := TCP | UDP | ICMP.

(** [Peer.ipv4(cidrIp)] keeps the value it was given. *)
Inductive Peer : Type := ipv4 (cidrIp : JsValue).

Inductive Port : Type :=
| tcp (port : Z)
| tcpRange (startPort endPort : Z)
| udp (port : Z)
| allTcp
| allTraffic.

Record IngressRule : Type := {
  peer : Peer;
  connection : Port;
}.

Record SecurityGroup : Type := {
  vpc : ConstructId;
  allowAllOutbound : bool;
  securityGroupName : string;
  ingressRules : list IngressRule;
}.

(** Which (protocol, destination port) pairs a port range covers. *)
Definition covers (p : Port) (proto : Protocol) (dst : Z) : bool :=
  match p, proto with
  | tcp n, TCP => dst =? n
  | tcpRange a b, TCP => (a <=? dst) && (dst <=? b)
  | udp n, UDP => dst =? n
  | allTcp, TCP => true
  | allTraffic, _ => true
  | _, _ => false
  end.

End ec2.

Module ecr.

Record Repository : Type := {
  repositoryName : string;
}.

End ecr.

Module iam.

Inductive Principal : Type := ServicePrincipal (service : string).

Inductive ManagedPolicy : Type := fromAwsManagedPolicyName (managedPolicyName : string).

Record PolicyStatement : Type := {
  actions : list string;
  resources : list string;
}.

(** [managedPolicies] and [statements] are those the constructor attaches
    with [addManagedPolicy] and [addToPolicy]; the grants the toolkit makes
    to a role by itself are not recorded. *)
Record Role : Type := {
  assumedBy : Principal;
  managedPolicies : list ManagedPolicy;
  statements : list PolicyStatement;
}.

End iam.

Module ecs.

Record Cluster : Type := {
  vpc : ConstructId;
}.

Inductive Compatibility : Type := EC2 | FARGATE | EC2_AND_FARGATE | EXTERNAL.
Inductive NetworkMode : Type := NONE | BRIDGE | AWS_VPC | HOST | NAT.
Inductive CpuArchitecture : Type := ARM64 | X86_64.
Inductive Protocol : Type := TCP | UDP.

Record RuntimePlatform : Type := {
  cpuArchitecture : CpuArchitecture;
}.

Record PortMapping : Type := {
  name : string;
  containerPort : Z;
  hostPort : Z;
  protocol : Protocol;
}.

Inductive ContainerImage : Type := fromEcrRepository (repository : ConstructId).

Record ContainerDefinition : Type := {
  containerName : string;
  image : ContainerImage;
  portMappings : list PortMapping;
  essential : bool;
}.

Record TaskDefinition : Type := {
  family : string;
  compatibility : Compatibility;
  networkMode : NetworkMode;
  cpu : string;
  memoryMiB : string;
  executionRole : ConstructId;
  taskRole : ConstructId;
  runtimePlatform : RuntimePlatform;
  containers : list ContainerDefinition;
}.

Record FargateService : Type := {
  cluster : ConstructId;
  taskDefinition : ConstructId;
  desiredCount : Z;
  securityGroups : list ConstructId;
}.

End ecs.

Module codecommit.

Record Repository : Type := {
  repositoryName : string;
}.

End codecommit.

Module codebuild.

(** A command of the build specification is a template literal: text with
    the registry's address, known only at deployment, spliced in. *)
Inductive Piece : Type :=
| Text (s : string)
| RepositoryUri (repository : ConstructId).

Definition Command : Type := list Piece.

Record Phase : Type := {
  commands : list Command;
}.

Record Phases : Type := {
  pre_build : Phase;
  build : Phase;
  post_build : Phase;
}.

Record Artifacts : Type := {
  files : list string;
}.

Record BuildSpec : Type := {
  version : string;
  phases : Phases;
  artifacts : Artifacts;
}.

Record PipelineProject : Type := {
  role : ConstructId;
  buildSpec : BuildSpec;
}.

End codebuild.

Module codepipeline.

(** [new codepipeline.Artifact()] makes a fresh object; two artifacts are
    the same object when they come from the same allocation. *)
Record Artifact : Type := { allocation : nat }.

Inductive Action : Type :=
| CodeCommitSourceAction (actionName : string) (repository : ConstructId) (output : Artifact)
| CodeBuildAction (actionName : string) (project : ConstructId) (input : Artifact)
    (outputs : list Artifact)
| EcsDeployAction (actionName : string) (service : ConstructId) (input : Artifact).

Record StageProps : Type := {
  stageName : string;
  actions : list Action;
}.

Record Pipeline : Type := {
  pipelineName : string;
  stages : list StageProps;
}.

Definition actionInputs (a : Action) : list Artifact :=
  match a with
  | CodeCommitSourceAction _ _ _ => []
  | CodeBuildAction _ _ input _ => [input]
  | EcsDeployAction _ _ input => [input]
  end.

Definition actionOutputs (a : Action) : list Artifact :=
  match a with
  | CodeCommitSourceAction _ _ output => [output]
  | CodeBuildAction _ _ _ outputs => outputs
  | EcsDeployAction _ _ _ => []
  end.

End codepipeline.

(** ** The construct tree *)

Inductive Construct : Type :=
| CVpc (v : ec2.Vpc)
| CSecurityGroup (g : ec2.SecurityGroup)
| CEcrRepository (r : ecr.Repository)
| CCluster (c : ecs.Cluster)
| CRole (r : iam.Role)
| CTaskDefinition (t : ecs.TaskDefinition)
| CFargateService (s : ecs.FargateService)
| CPipeline (p : codepipeline.Pipeline)
| CCodeCommitRepository (r : codecommit.Repository)
| CPipelineProject (p : codebuild.PipelineProject).

(** [children] are the constructs the constructor creates with the stack as
    their scope. *)
Record Stack : Type := {
  children : gmap string Construct;
  artifactsAllocated : nat;
}.

Definition emptyStack : Stack := {| children := ∅; artifactsAllocated := 0 |}.

(** ** Construction as a computation over the construct tree *)

Definition Synth (A : Type) : Type := Stack → Exn + (A * Stack).

#[global] Instance Synth_ret : MRet Synth := λ A a st, inr (a, st).

#[global] Instance Synth_bind : MBind Synth := λ A B f m st,
  match m st with
  | inl e => inl e
  | inr (a, st') => f a st'
  end.

Definition throw {A : Type} (e : Exn) : Synth A := λ _, inl e.

Definition evaluate {A : Type} (r : Exn + A) : Synth A :=
  match r with
  | inl e => throw e
  | inr a => mret a
  end.

(** [new C(this, id, ...)]: the id must be free among the stack's children. *)
Definition newConstruct (id : string) (c : Construct) : Synth ConstructId := λ st,
  match children st !! id with
  | Some _ => inl (Error ("There is already a Construct with name '" +:+ id +:+ "'"))
  | None => inr (id, {| children := <[id := c]> (children st);
                        artifactsAllocated := artifactsAllocated st |})
  end.

(** A method that mutates the object behind a reference. *)
Definition mutate (id : ConstructId) (f : Construct → option Construct) : Synth unit := λ st,
  match children st !! id ≫= f with
  | Some c => inr (tt, {| children := <[id := c]> (children st);
                          artifactsAllocated := artifactsAllocated st |})
  | None => inl (TypeError ("not a method of '" +:+ id +:+ "'"))
  end.

Definition new_Artifact : Synth codepipeline.Artifact := λ st,
  inr ({| codepipeline.allocation := artifactsAllocated st |},
       {| children := children st; artifactsAllocated := S (artifactsAllocated st) |}).

Definition tryGetContext (context : gmap string JsValue) (key : string) : JsValue :=
  default JUndefined (context !! key).

(** The network as declared.  A helper construct the toolkit may place
    beside it in the stack, depending on its feature flags, is not recorded. *)
Definition new_Vpc (id : string) (props : ec2.Vpc) : Synth ConstructId :=
  newConstruct id (CVpc props).

Definition new_SecurityGroup (id : string) (vpc : ConstructId) (allowAllOutbound : bool)
    (securityGroupName : string) : Synth ConstructId :=
  newConstruct id (CSecurityGroup
    {| ec2.vpc := vpc; ec2.allowAllOutbound := allowAllOutbound;
       ec2.securityGroupName := securityGroupName; ec2.ingressRules := [] |}).

Definition addIngressRule (securityGroup : ConstructId) (peer : ec2.Peer) (connection : ec2.Port)
    : Synth unit :=
  mutate securityGroup (λ c,
    match c with
    | CSecurityGroup g =>
        Some (CSecurityGroup
          {| ec2.vpc := ec2.vpc g; ec2.allowAllOutbound := ec2.allowAllOutbound g;
             ec2.securityGroupName := ec2.securityGroupName g;
             ec2.ingressRules :=
               ec2.ingressRules g ++ [ {| ec2.peer := peer; ec2.connection := connection |} ] |})
    | _ => None
    end).

Definition new_EcrRepository (id : string) (props : ecr.Repository) : Synth ConstructId :=
  newConstruct id (CEcrRepository props).

Definition new_Cluster (id : string) (props : ecs.Cluster) : Synth ConstructId :=
  newConstruct id (CCluster props).

Definition new_Role (id : string) (assumedBy : iam.Principal) : Synth ConstructId :=
  newConstruct id (CRole
    {| iam.assumedBy := assumedBy; iam.managedPolicies := []; iam.statements := [] |}).

Definition addManagedPolicy (role : ConstructId) (policy : iam.ManagedPolicy) : Synth unit :=
  mutate role (λ c,
    match c with
    | CRole r =>
        Some (CRole {| iam.assumedBy := iam.assumedBy r;
                       iam.managedPolicies := iam.managedPolicies r ++ [policy];
                       iam.statements := iam.statements r |})
    | _ => None
    end).

Definition addToPolicy (role : ConstructId) (statement : iam.PolicyStatement) : Synth unit :=
  mutate role (λ c,
    match c with
    | CRole r =>
        Some (CRole {| iam.assumedBy := iam.assumedBy r;
                       iam.managedPolicies := iam.managedPolicies r;
                       iam.statements := iam.statements r ++ [statement] |})
    | _ => None
    end).

Definition new_TaskDefinition (id : string) (family : string)
    (compatibility : ecs.Compatibility) (networkMode : ecs.NetworkMode)
    (cpu memoryMiB : string) (executionRole taskRole : ConstructId)
    (runtimePlatform : ecs.RuntimePlatform) : Synth ConstructId :=
  newConstruct id (CTaskDefinition
    {| ecs.family := family; ecs.compatibility := compatibility;
       ecs.networkMode := networkMode; ecs.cpu := cpu; ecs.memoryMiB := memoryMiB;
       ecs.executionRole := executionRole; ecs.taskRole := taskRole;
       ecs.runtimePlatform := runtimePlatform; ecs.containers := [] |}).

(** The container as declared.  The permission to pull that the toolkit
    grants to the execution role for an image from a registry is not
    recorded. *)
Definition addContainer (task : ConstructId) (id : string) (image : ecs.ContainerImage)
    (portMappings : list ecs.PortMapping) (essential : bool) : Synth ecs.ContainerDefinition :=
  let container :=
    {| ecs.containerName := id; ecs.image := image;
       ecs.portMappings := portMappings; ecs.essential := essential |} in
  mutate task (λ c,
    match c with
    | CTaskDefinition t =>
        Some (CTaskDefinition
          {| ecs.family := ecs.family t; ecs.compatibility := ecs.compatibility t;
             ecs.networkMode := ecs.networkMode t; ecs.cpu := ecs.cpu t;
             ecs.memoryMiB := ecs.memoryMiB t; ecs.executionRole := ecs.executionRole t;
             ecs.taskRole := ecs.taskRole t; ecs.runtimePlatform := ecs.runtimePlatform t;
             ecs.containers := ecs.containers t ++ [container] |})
    | _ => None
    end);;
  mret container.

Definition new_FargateService (id : string) (props : ecs.FargateService) : Synth ConstructId :=
  newConstruct id (CFargateService props).

Definition new_Pipeline (id : string) (pipelineName : string) : Synth ConstructId :=
  newConstruct id (CPipeline
    {| codepipeline.pipelineName := pipelineName; codepipeline.stages := [] |}).

(** The stage as declared.  The permissions the toolkit grants to the roles
    of the actions it binds are not recorded. *)
Definition addStage (pipeline : ConstructId) (stage : codepipeline.StageProps) : Synth unit :=
  mutate pipeline (λ c,
    match c with
    | CPipeline p =>
        Some (CPipeline
          {| codepipeline.pipelineName := codepipeline.pipelineName p;
             codepipeline.stages := codepipeline.stages p ++ [stage] |})
    | _ => None
    end).

Definition new_CodeCommitRepository (id : string) (props : codecommit.Repository)
    : Synth ConstructId :=
  newConstruct id (CCodeCommitRepository props).

(** The project as declared.  The permissions the toolkit grants to the
    project's role for its logs and reports are not recorded. *)
Definition new_PipelineProject (id : string) (props : codebuild.PipelineProject)
    : Synth ConstructId :=
  newConstruct id (CPipelineProject props).

(** The double-quote character, for the one command that contains it. *)
Definition dq : string := String (ascii_of_nat 34) EmptyString.

Definition sh (s : string) : codebuild.Command := [codebuild.Text s].

(** ** The stack *)

(** The value of the expression [this.node.tryGetContext("env").myIPAddress]. *)
Definition allowListedAddress (context : gmap string JsValue) : Exn + JsValue :=
  getProp (tryGetContext context "env") "myIPAddress".

Section CdkTestStack.

(** [super(scope, id, props)] runs the toolkit's own constructor of a stack,
    which reads the context and throws on one it refuses (a feature flag it
    no longer supports, for one).  That check is not part of this
    repository: it is a parameter here, [None] meaning accepted. *)
Variable stackCheck : gmap string JsValue → option Exn.

Definition super (context : gmap string JsValue) : Synth unit :=
  match stackCheck context with
  | Some e => throw e
  | None => mret tt
  end.

(** [Peer.ipv4] checks the syntax of its argument inside the toolkit and
    throws on a value it does not accept.  That check is not part of this
    repository: it is a parameter here, [None] meaning accepted. *)
Variable ipv4Check : JsValue → option Exn.

Definition Peer_ipv4 (cidrIp : JsValue) : Synth ec2.Peer :=
  match ipv4Check cidrIp with
  | Some e => throw e
  | None => mret (ec2.ipv4 cidrIp)
  end.

Definition testAPIBuildSpec (testAPIECRRepository : ConstructId) : codebuild.BuildSpec :=
  {| codebuild.version := "0.2";
     codebuild.phases :=
       {| codebuild.pre_build := {| codebuild.commands := [
            sh "aws ecr get-login-password --region $AWS_DEFAULT_REGION | docker login --username AWS --password-stdin  [repositoryUriからリポジトリ名を削除した文字列]";
            [codebuild.Text "REPOSITORY_URI="; codebuild.RepositoryUri testAPIECRRepository];
            sh "COMMIT_HASH=$(echo $CODEBUILD_RESOLVED_SOURCE_VERSION | cut -c 1-7)";
            sh "IMAGE_TAG=${COMMIT_HASH:=latest}"
          ] |};
          codebuild.build := {| codebuild.commands := [
            sh "n install 16";
            sh "npm install";
            sh "npm test";
            sh "docker build -t $REPOSITORY_URI:latest .";
            sh "docker tag $REPOSITORY_URI:latest $REPOSITORY_URI:$IMAGE_TAG"
          ] |};
          codebuild.post_build := {| codebuild.commands := [
            sh "docker push $REPOSITORY_URI:latest";
            sh "docker push $REPOSITORY_URI:$IMAGE_TAG";
            sh ("printf '[{" +:+ dq +:+ "name" +:+ dq +:+ ":" +:+ dq +:+ "next-container-task"
                +:+ dq +:+ "," +:+ dq +:+ "imageUri" +:+ dq +:+ ":" +:+ dq +:+ "%s" +:+ dq
                +:+ "}]' $REPOSITORY_URI:latest > imagedefinitions.json")
          ] |} |};
     codebuild.artifacts := {| codebuild.files := ["imagedefinitions.json"] |} |}.

Definition constructor (context : gmap string JsValue) : Synth unit :=
  super context;;
  testAPIVPC ← new_Vpc "TestAPIVPC"
    {| ec2.cidr := "10.0.0.0/23";
       ec2.maxAzs := 1;
       ec2.subnetConfiguration := [
         {| ec2.cidrMask := 23; ec2.name := "PublicSubnet"; ec2.subnetType := ec2.PUBLIC |}
       ] |};
  testAPISecurityGroup ← new_SecurityGroup "TestAPISecurityGroup"
    testAPIVPC true "TestAPISecurityGroup";
  myIPAddress ← evaluate (allowListedAddress context);
  peer ← Peer_ipv4 myIPAddress;
  addIngressRule testAPISecurityGroup peer (ec2.tcp 80);;
  testAPIECRRepository ← new_EcrRepository "TestAPIECRRepository"
    {| ecr.repositoryName := "test-ecr-repository" |};
  testAPIECSCluster ← new_Cluster "TestAPICluster" {| ecs.vpc := testAPIVPC |};
  testAPITaskRole ← new_Role "TestAPITaskRole" (iam.ServicePrincipal "ecs-tasks.amazonaws.com");
  addManagedPolicy testAPITaskRole
    (iam.fromAwsManagedPolicyName "service-role/AmazonECSTaskExecutionRolePolicy");;
  testAPITask ← new_TaskDefinition "TestAPITaskDefinition"
    "test-api-family" ecs.FARGATE ecs.AWS_VPC "1024" "3072" testAPITaskRole testAPITaskRole
    {| ecs.cpuArchitecture := ecs.ARM64 |};
  testAPIContainer ← addContainer testAPITask "test-api-task"
    (ecs.fromEcrRepository testAPIECRRepository)
    [ {| ecs.name := "test-api-80-tcp"; ecs.containerPort := 80; ecs.hostPort := 80;
         ecs.protocol := ecs.TCP |} ]
    true;
  testAPIService ← new_FargateService "TestAPIService"
    {| ecs.cluster := testAPIECSCluster;
       ecs.taskDefinition := testAPITask;
       ecs.desiredCount := 0;
       ecs.securityGroups := [testAPISecurityGroup] |};
  testAPIPipeline ← new_Pipeline "TestAPIPipeline" "test-api-pipeline";
  repository ← new_CodeCommitRepository "TestAPIRepository"
    {| codecommit.repositoryName := "test-api" |};
  sourceOutput ← new_Artifact;
  let sourceAction := codepipeline.CodeCommitSourceAction "Source" repository sourceOutput in
  addStage testAPIPipeline
    {| codepipeline.stageName := "Source"; codepipeline.actions := [sourceAction] |};;
  buildRole ← new_Role "TestAPIBuildRole" (iam.ServicePrincipal "codebuild.amazonaws.com");
  addToPolicy buildRole
    {| iam.actions := [ "ecr:GetDownloadUrlForLayer";
                        "ecr:BatchGetImage";
                        "ecr:BatchCheckLayerAvailability" ];
       iam.resources := ["*"] |};;
  buildProject ← new_PipelineProject "TestAPIBuild"
    {| codebuild.role := buildRole;
       codebuild.buildSpec := testAPIBuildSpec testAPIECRRepository |};
  let buildAction := codepipeline.CodeBuildAction "Build" buildProject sourceOutput [] in
  addStage testAPIPipeline
    {| codepipeline.stageName := "Build"; codepipeline.actions := [buildAction] |};;
  let deployAction := codepipeline.EcsDeployAction "Deploy" testAPIService sourceOutput in
  addStage testAPIPipeline
    {| codepipeline.stageName := "Deploy"; codepipeline.actions := [deployAction] |}.

(** [new CdkTestStack(new cdk.App(), "CdkTestStack")] where the app carries
    [context]: the finished construct tree, or the exception that aborted
    construction. *)
Definition CdkTestStack (context : gmap string JsValue) : Exn + Stack :=
  match constructor context emptyStack with
  | inl e => inl e
  | inr (_, st) => inr st
  end.

End CdkTestStack.

(** ** Reading the finished construct tree *)

Definition vpcsOf (st : Stack) : gmap string ec2.Vpc :=
  omap (λ c, match c with CVpc v => Some v | _ => None end) (children st).

Definition securityGroupsOf (st : Stack) : gmap string ec2.SecurityGroup :=
  omap (λ c, match c with CSecurityGroup g => Some g | _ => None end) (children st).

Definition registriesOf (st : Stack) : gmap string ecr.Repository :=
  omap (λ c, match c with CEcrRepository r => Some r | _ => None end) (children st).

Definition clustersOf (st : Stack) : gmap string ecs.Cluster :=
  omap (λ c, match c with CCluster k => Some k | _ => None end) (children st).

Definition taskDefinitionsOf (st : Stack) : gmap string ecs.TaskDefinition :=
  omap (λ c, match c with CTaskDefinition t => Some t | _ => None end) (children st).

Definition servicesOf (st : Stack) : gmap string ecs.FargateService :=
  omap (λ c, match c with CFargateService s => Some s | _ => None end) (children st).

Definition pipelinesOf (st : Stack) : gmap string codepipeline.Pipeline :=
  omap (λ c, match c with CPipeline p => Some p | _ => None end) (children st).

Definition sourceRepositoriesOf (st : Stack) : gmap string codecommit.Repository :=
  omap (λ c, match c with CCodeCommitRepository r => Some r | _ => None end) (children st).

Definition buildProjectsOf (st : Stack) : gmap string codebuild.PipelineProject :=
  omap (λ c, match c with CPipelineProject p => Some p | _ => None end) (children st).

(** The smallest context that carries the address [v]. *)
Definition contextWith (v : JsValue) : gmap string JsValue :=
  {[ "env" := JObj [("myIPAddress", v)] ]}.

(** The tree built when the context carries the address [v] and the toolkit
    accepts both the context and the address. *)
Definition deployed (v : JsValue) : Stack :=
  match CdkTestStack (λ _, None) (λ _, None) (contextWith v) with
  | inr st => st
  | inl _ => emptyStack
  end.

(** Traffic a security group lets in: some ingress rule covers it. *)
Definition admitsInbound (g : ec2.SecurityGroup) (proto : ec2.Protocol) (dst : Z) : bool :=
  existsb (λ r, ec2.covers (ec2.connection r) proto dst) (ec2.ingressRules g).

(** Artifacts read and written by the actions of the stage called [name]. *)
Definition stageNamed (p : codepipeline.Pipeline) (name : string) : list codepipeline.StageProps :=
  filter (λ s, codepipeline.stageName s = name) (codepipeline.stages p).

Definition stageInputs (p : codepipeline.Pipeline) (name : string) : list codepipeline.Artifact :=
  s ← stageNamed p name; a ← codepipeline.actions s; codepipeline.actionInputs a.

Definition stageOutputs (p : codepipeline.Pipeline) (name : string) : list codepipeline.Artifact :=
  s ← stageNamed p name; a ← codepipeline.actions s; codepipeline.actionOutputs a.

(** *** Decimal text, for address ranges written as strings *)

Definition digitValue (c : ascii) : option Z :=
  let n := Z.of_nat (nat_of_ascii c) in
  if (48 <=? n) && (n <=? 57) then Some (n - 48) else None.

Fixpoint decimalFrom (acc : Z) (s : string) : option Z :=
  match s with
  | EmptyString => Some acc
  | String c rest =>
      match digitValue c with
      | Some d => decimalFrom (10 * acc + d) rest
      | None => None
      end
  end.

Definition decimal (s : string) : option Z :=
  match s with
  | EmptyString => None
  | _ => decimalFrom 0 s
  end.

Fixpoint splitAt (sep : ascii) (s : string) : list string :=
  match s with
  | EmptyString => [EmptyString]
  | String c rest =>
      if Ascii.eqb c sep then EmptyString :: splitAt sep rest
      else match splitAt sep rest with
           | [] => [String c EmptyString]
           | w :: ws => String c w :: ws
           end
  end.

(** The length n of the prefix in a range written [a.b.c.d/n]. *)
Definition cidrPrefixLength (range : string) : option Z :=
  match splitAt "/" range with
  | [_; n] => decimal n
  | _ => None
  end.

(** One to three decimal digits. *)
Definition octetText (s : string) : bool :=
  bool_decide (is_Some (decimal s)) && (String.length s <=? 3)%nat.

(** A concrete instance of the toolkit's check on a literal address: four
    groups of one to three digits and a mandatory [/mask]; a value that is
    not a string has no [match] method. *)
Definition literalIpv4Check (v : JsValue) : option Exn :=
  match v with
  | JStr s =>
      match splitAt "/" s with
      | [a] =>
          if bool_decide (length (splitAt "." a) = 4%nat) && forallb octetText (splitAt "." a)
          then Some (Error ("CIDR mask is missing in IPv4: " +:+ s))
          else Some (Error ("Invalid IPv4 CIDR: " +:+ s))
      | [a; m] =>
          if bool_decide (length (splitAt "." a) = 4%nat) && forallb octetText (splitAt "." a)
             && bool_decide (is_Some (decimal m))
          then None
          else Some (Error ("Invalid IPv4 CIDR: " +:+ s))
      | _ => Some (Error ("Invalid IPv4 CIDR: " +:+ s))
      end
  | JUndefined => Some (TypeError "Cannot read properties of undefined (reading 'match')")
  | JNull => Some (TypeError "Cannot read properties of null (reading 'match')")
  | _ => Some (TypeError "cidrIp.match is not a function")
  end.

(** An instance of the toolkit's check on the context: it accepts, as the
    toolkit does for a context that holds nothing but [env]. *)
Definition contextAccepted (context : gmap string JsValue) : option Exn := None.

(** *** The steps of a build script *)

Inductive Step : Type :=
| LogIn
| BuildImage
| TagByCommit
| PushLatest
| PushCommitTag
| EmitManifest
| SetVariable
| OtherStep.

#[global] Instance Step_eq_dec : EqDecision Step.
Proof. solve_decision. Defined.

(** The text of a command as written, spliced values left out. *)
Definition literalText (c : codebuild.Command) : string :=
  String.concat "" (map (λ p, match p with codebuild.Text s => s | _ => "" end) c).

(** [s] ends with [suffix]. *)
Definition endsWith (suffix s : string) : bool :=
  (String.length suffix <=? String.length s)%nat
  && String.eqb (String.substring (String.length s - String.length suffix)
                   (String.length suffix) s) suffix.

(** [pat] occurs somewhere in [s]. *)
Definition contains (pat s : string) : bool :=
  bool_decide (is_Some (String.index 0 pat s)).

(** A shell assignment [NAME=...]: a non-empty name without blanks before
    the first [=]. *)
Definition isAssignment (s : string) : bool :=
  match splitAt "=" s with
  | name :: _ :: _ => negb (contains " " name) && negb (String.eqb name "")
  | _ => false
  end.

(** What a command of the script does, told from its text: the docker
    sub-command it runs, the file it redirects to, or the variable it sets. *)
Definition classify (c : codebuild.Command) : Step :=
  let s := literalText c in
  if contains "docker login " s then LogIn
  else if String.prefix "docker build " s then BuildImage
  else if String.prefix "docker tag " s && contains ":$IMAGE_TAG" s then TagByCommit
  else if String.eqb s "docker push $REPOSITORY_URI:latest" then PushLatest
  else if String.eqb s "docker push $REPOSITORY_URI:$IMAGE_TAG" then PushCommitTag
  else if String.prefix "printf " s && contains " > imagedefinitions.json" s then EmitManifest
  else if isAssignment s then SetVariable
  else OtherStep.

(** All commands of a build specification, in the order the phases run. *)
Definition script (b : codebuild.BuildSpec) : list codebuild.Command :=
  codebuild.commands (codebuild.pre_build (codebuild.phases b))
  ++ codebuild.commands (codebuild.build (codebuild.phases b))
  ++ codebuild.commands (codebuild.post_build (codebuild.phases b)).

(** The steps that handle the image or its manifest. *)
Definition isCoreStep (s : Step) : bool :=
  match s with
  | SetVariable | OtherStep => false
  | _ => true
  end.

(** The build script read as the bare list of six steps: nothing but log in,
    build, tag, push, push, emit, with the manifest as the artifact file. *)
Definition SixStepScript (b : codebuild.BuildSpec) : Prop :=
  classify <$> script b =
    [ LogIn; BuildImage; TagByCommit; PushLatest; PushCommitTag; EmitManifest ] ∧
  codebuild.files (codebuild.artifacts b) = ["imagedefinitions.json"].

(** A deployer's context that supplies an address. *)
Definition address0 : JsValue := JStr "203.0.113.7/32".
Definition ctx0 : gmap string JsValue := contextWith address0.


(** ** Further readings of the construct tree *)

Definition rolesOf (st : Stack) : gmap string iam.Role :=
  omap (λ c, match c with CRole r => Some r | _ => None end) (children st).

(** An environment value from which [.myIPAddress] reads [undefined] without
    throwing: a primitive, an array, or an object without that property. *)
Definition lacksAddress (env : JsValue) : bool :=
  match env with
  | JUndefined | JNull => false
  | JObj props => forallb (λ kv, negb (String.eqb (fst kv) "myIPAddress")) props
  | _ => true
  end.

(** *** References that resolve

    A construct holds its neighbours by reference.  Each reference is
    checked against the tree: it must name a construct of the kind the
    holder expects, and an artifact must be one that was allocated. *)

Definition allocated (st : Stack) (a : codepipeline.Artifact) : bool :=
  (codepipeline.allocation a <? artifactsAllocated st)%nat.

Definition actionResolves (st : Stack) (a : codepipeline.Action) : bool :=
  match a with
  | codepipeline.CodeCommitSourceAction _ repository output =>
      bool_decide (is_Some (sourceRepositoriesOf st !! repository)) && allocated st output
  | codepipeline.CodeBuildAction _ project input outputs =>
      bool_decide (is_Some (buildProjectsOf st !! project)) && allocated st input
      && forallb (allocated st) outputs
  | codepipeline.EcsDeployAction _ service input =>
      bool_decide (is_Some (servicesOf st !! service)) && allocated st input
  end.

Definition pieceResolves (st : Stack) (p : codebuild.Piece) : bool :=
  match p with
  | codebuild.Text _ => true
  | codebuild.RepositoryUri r => bool_decide (is_Some (registriesOf st !! r))
  end.

Definition resolves (st : Stack) (c : Construct) : bool :=
  match c with
  | CVpc _ | CEcrRepository _ | CRole _ | CCodeCommitRepository _ => true
  | CSecurityGroup g => bool_decide (is_Some (vpcsOf st !! ec2.vpc g))
  | CCluster k => bool_decide (is_Some (vpcsOf st !! ecs.vpc k))
  | CTaskDefinition t =>
      bool_decide (is_Some (rolesOf st !! ecs.executionRole t))
      && bool_decide (is_Some (rolesOf st !! ecs.taskRole t))
      && forallb (λ c, match ecs.image c with
                       | ecs.fromEcrRepository r => bool_decide (is_Some (registriesOf st !! r))
                       end) (ecs.containers t)
  | CFargateService s =>
      bool_decide (is_Some (clustersOf st !! ecs.cluster s))
      && bool_decide (is_Some (taskDefinitionsOf st !! ecs.taskDefinition s))
      && forallb (λ g, bool_decide (is_Some (securityGroupsOf st !! g))) (ecs.securityGroups s)
  | CPipeline p =>
      forallb (λ s, forallb (actionResolves st) (codepipeline.actions s)) (codepipeline.stages p)
  | CPipelineProject p =>
      bool_decide (is_Some (rolesOf st !! codebuild.role p))
      && forallb (forallb (pieceResolves st)) (script (codebuild.buildSpec p))
  end.

(** *** Shell variables of the build script *)

(** The command expands the variable: [$NAME] or [${NAME...}] occurs in it. *)
Definition expands (var : string) (c : codebuild.Command) : bool :=
  contains ("$" +:+ var) (literalText c) || contains ("${" +:+ var) (literalText c).

(** The command is the assignment [NAME=...]. *)
Definition assigns (var : string) (c : codebuild.Command) : bool :=
  String.prefix (var +:+ "=") (literalText c).

(** The registries whose address a command splices in. *)
Definition splicedRegistries (c : codebuild.Command) : list ConstructId :=
  omap (λ p, match p with codebuild.RepositoryUri r => Some r | _ => None end) c.

(** * Properties *)

Section Properties.

Variable stackCheck : gmap string JsValue → option Exn.
Variable ipv4Check : JsValue → option Exn.

(** Two continuations that agree after [m] give the same computation. *)
Lemma bind_cong {A B : Type} (m : Synth A) (f g : A → Synth B) (s : Stack) :
  (∀ a s', f a s' = g a s') → (m ≫= f) s = (m ≫= g) s.
Proof.
  intros Hfg. unfold mbind, Synth_bind.
  destruct (m s) as [e|[a s']]; [reflexivity|apply Hfg].
Qed.

Lemma allowListedAddress_contextWith (v : JsValue) :
  allowListedAddress (contextWith v) = inr v.
Proof. reflexivity. Qed.

(** A context the toolkit refuses aborts construction at once. *)
Lemma constructor_refused (context : gmap string JsValue) (e : Exn) (s : Stack) :
  stackCheck context = Some e →
  constructor stackCheck ipv4Check context s = inl e.
Proof.
  intros Hstack. unfold constructor, super. rewrite Hstack. reflexivity.
Qed.

(** Past the toolkit's check of the context, construction reads the context
    in one place only, and asks the toolkit's check of the address about that
    one value only. *)
Lemma constructor_reads_address (context : gmap string JsValue) (v : JsValue) (s : Stack) :
  stackCheck context = None →
  allowListedAddress context = inr v →
  constructor stackCheck ipv4Check context s =
    constructor (λ _, None) (λ _, ipv4Check v) (contextWith v) s.
Proof.
  intros Hstack Hread. unfold constructor, super.
  rewrite Hstack, allowListedAddress_contextWith, Hread.
  apply bind_cong; intros [] s0.
  apply bind_cong; intros testAPIVPC s1.
  apply bind_cong; intros testAPISecurityGroup s2.
  reflexivity.
Qed.

Lemma constructor_unreadable (context : gmap string JsValue) (e : Exn) :
  stackCheck context = None →
  allowListedAddress context = inl e →
  constructor stackCheck ipv4Check context emptyStack = inl e.
Proof.
  intros Hstack Hread. unfold constructor, super. rewrite Hstack, Hread.
  vm_compute. reflexivity.
Qed.

Lemma constructor_rejected (v : JsValue) (e : Exn) :
  constructor (λ _, None) (λ _, Some e) (contextWith v) emptyStack = inl e.
Proof. vm_compute. reflexivity. Qed.

(** When construction returns, the toolkit accepted the context. *)
Lemma CdkTestStack_returns_checked (context : gmap string JsValue) (st : Stack) :
  CdkTestStack stackCheck ipv4Check context = inr st → stackCheck context = None.
Proof.
  unfold CdkTestStack. intros H.
  destruct (stackCheck context) as [e|] eqn:Hstack; [|reflexivity].
  rewrite (constructor_refused _ _ _ Hstack) in H. discriminate.
Qed.

(** When construction returns, the address was present and accepted, and
    the tree is the one built from the smallest context carrying it. *)
Lemma CdkTestStack_returns (context : gmap string JsValue) (st : Stack) :
  CdkTestStack stackCheck ipv4Check context = inr st →
  ∃ v, allowListedAddress context = inr v ∧ ipv4Check v = None ∧ st = deployed v.
Proof.
  intros H. pose proof (CdkTestStack_returns_checked _ _ H) as Hstack.
  unfold CdkTestStack in H.
  destruct (allowListedAddress context) as [e|v] eqn:Hread.
  - rewrite (constructor_unreadable _ _ Hstack Hread) in H. discriminate.
  - rewrite (constructor_reads_address _ _ _ Hstack Hread) in H.
    exists v. split; [reflexivity|].
    destruct (ipv4Check v) as [e|] eqn:Hcheck.
    + rewrite constructor_rejected in H. discriminate.
    + split; [reflexivity|]. unfold deployed, CdkTestStack.
      destruct (constructor _ _ _ _) as [e|[[] s]]; [discriminate|].
      injection H as ->. reflexivity.
Qed.

(** Conversely, in this embedding construction returns whenever the toolkit
    accepts the context, the address can be read and the toolkit accepts
    it. *)
Lemma deployed_returns (v : JsValue) :
  CdkTestStack (λ _, None) (λ _, None) (contextWith v) = inr (deployed v).
Proof.
  unfold deployed.
  assert (∃ st, CdkTestStack (λ _, None) (λ _, None) (contextWith v) = inr st) as [st ->];
    [|reflexivity].
  vm_compute. eexists. reflexivity.
Qed.

Lemma CdkTestStack_accepted (context : gmap string JsValue) (v : JsValue) :
  stackCheck context = None →
  allowListedAddress context = inr v → ipv4Check v = None →
  CdkTestStack stackCheck ipv4Check context = inr (deployed v).
Proof.
  intros Hstack Hread Hcheck. rewrite <- (deployed_returns v). unfold CdkTestStack.
  rewrite (constructor_reads_address _ _ _ Hstack Hread), Hcheck. reflexivity.
Qed.

(** From a returned construction to its concrete tree. *)
Ltac finished H v :=
  let Hread := fresh "Hread" in
  let Haccept := fresh "Haccept" in
  let Hst := fresh "Hst" in
  destruct (CdkTestStack_returns _ _ H) as (v & Hread & Haccept & Hst);
  subst.

(** A lookup in a one-entry table names that entry. *)
Ltac the_only Hl :=
  apply elem_of_map_to_list in Hl; vm_compute in Hl;
  apply list_elem_of_singleton in Hl; injection Hl as -> ->.

(** [C4] The stack has exactly one service; it asks for zero running
    instances, its task specification and its cluster are constructs of
    the stack, and its only security group is the one carrying the
    port-80 rule for the allow-listed address. *)
Theorem service_starts_at_zero (context : gmap string JsValue) (st : Stack) :
  CdkTestStack stackCheck ipv4Check context = inr st →
  size (servicesOf st) = 1%nat ∧
  ∀ id svc, servicesOf st !! id = Some svc →
    ecs.desiredCount svc = 0 ∧
    is_Some (taskDefinitionsOf st !! ecs.taskDefinition svc) ∧
    is_Some (clustersOf st !! ecs.cluster svc) ∧
    ∃ g sg v, ecs.securityGroups svc = [g] ∧
      securityGroupsOf st !! g = Some sg ∧
      allowListedAddress context = inr v ∧
      ec2.ingressRules sg = [ {| ec2.peer := ec2.ipv4 v; ec2.connection := ec2.tcp 80 |} ].
Proof.
  intros H. finished H v. split; [vm_compute; reflexivity|].
  intros id svc Hl. the_only Hl.
  split; [reflexivity|].
  split; [vm_compute; eexists; reflexivity|]. split; [vm_compute; eexists; reflexivity|].
  eexists _, _, v. split; [reflexivity|].
  split; [vm_compute; reflexivity|]. split; [assumption|]. reflexivity.
Qed.

(** [C7] Every security group attached to a service lives in the network
    its cluster is bound to, and that network is a construct of the stack. *)
Theorem service_network_is_cluster_network (context : gmap string JsValue) (st : Stack) :
  CdkTestStack stackCheck ipv4Check context = inr st →
  ∀ id svc, servicesOf st !! id = Some svc →
    ∀ g, g ∈ ecs.securityGroups svc →
      ∃ sg k, securityGroupsOf st !! g = Some sg ∧
        clustersOf st !! ecs.cluster svc = Some k ∧
        ec2.vpc sg = ecs.vpc k ∧
        is_Some (vpcsOf st !! ec2.vpc sg).
Proof.
  intros H. finished H v. intros id svc Hl. the_only Hl.
  intros g Hg. apply list_elem_of_singleton in Hg as ->.
  eexists _, _. split; [vm_compute; reflexivity|].
  split; [vm_compute; reflexivity|]. split; [reflexivity|].
  vm_compute. eexists; reflexivity.
Qed.

(** [C10] The stack has one service, and the one security group attached
    to it allows all outbound traffic, next to its single inbound rule for
    TCP port 80. *)
Theorem service_security_group_allows_all_outbound
    (context : gmap string JsValue) (st : Stack) :
  CdkTestStack stackCheck ipv4Check context = inr st →
  size (servicesOf st) = 1%nat ∧
  ∀ id svc, servicesOf st !! id = Some svc →
    ∃ g sg, ecs.securityGroups svc = [g] ∧
      securityGroupsOf st !! g = Some sg ∧
      ec2.allowAllOutbound sg = true ∧
      ec2.connection <$> ec2.ingressRules sg = [ec2.tcp 80].
Proof.
  intros H. finished H v. split; [vm_compute; reflexivity|].
  intros id svc Hl. the_only Hl.
  eexists _, _. split; [reflexivity|].
  split; [vm_compute; reflexivity|]. split; reflexivity.
Qed.

(** [C5] The stack has one security group; its ingress rules are exactly
    the rule for the address read from the context and TCP port 80, so it
    admits inbound traffic on TCP port 80 and on nothing else. *)
Theorem ingress_only_port_80 (context : gmap string JsValue) (st : Stack) :
  CdkTestStack stackCheck ipv4Check context = inr st →
  ∃ v, allowListedAddress context = inr v ∧
    size (securityGroupsOf st) = 1%nat ∧
    ∀ id g, securityGroupsOf st !! id = Some g →
      ec2.ingressRules g = [ {| ec2.peer := ec2.ipv4 v; ec2.connection := ec2.tcp 80 |} ] ∧
      ∀ proto dst, admitsInbound g proto dst = true ↔ proto = ec2.TCP ∧ dst = 80.
Proof.
  intros H. finished H v. exists v. split; [assumption|].
  split; [vm_compute; reflexivity|].
  intros id g Hl. the_only Hl. split; [reflexivity|].
  intros proto dst. unfold admitsInbound. simpl.
  rewrite orb_false_r. destruct proto; simpl.
  - rewrite Z.eqb_eq. intuition.
  - split; [discriminate|intros [? _]; discriminate].
  - split; [discriminate|intros [? _]; discriminate].
Qed.

(** [C6] The stack has one task specification: 1024 CPU units, 3072 MiB,
    ARM64, VPC network mode, and exactly one container, which maps
    container port 80 and takes its image from the stack's one registry. *)
Theorem task_specification_shape (context : gmap string JsValue) (st : Stack) :
  CdkTestStack stackCheck ipv4Check context = inr st →
  size (taskDefinitionsOf st) = 1%nat ∧
  size (registriesOf st) = 1%nat ∧
  ∀ id t, taskDefinitionsOf st !! id = Some t →
    ecs.cpu t = "1024" ∧
    ecs.memoryMiB t = "3072" ∧
    ecs.cpuArchitecture (ecs.runtimePlatform t) = ecs.ARM64 ∧
    ecs.networkMode t = ecs.AWS_VPC ∧
    ∃ c, ecs.containers t = [c] ∧
      ecs.containerPort <$> ecs.portMappings c = [80] ∧
      ∃ r, ecs.image c = ecs.fromEcrRepository r ∧ is_Some (registriesOf st !! r).
Proof.
  intros H. finished H v.
  split; [vm_compute; reflexivity|]. split; [vm_compute; reflexivity|].
  intros id t Hl. the_only Hl. repeat (split; [reflexivity|]).
  eexists. split; [reflexivity|]. split; [reflexivity|].
  eexists. split; [reflexivity|]. vm_compute. eexists; reflexivity.
Qed.

(** [C8] The stack has one network, over one availability zone, with
    exactly one subnet configuration: public, and with the same prefix
    length, 23, as the network's own address range. *)
Theorem network_one_public_range (context : gmap string JsValue) (st : Stack) :
  CdkTestStack stackCheck ipv4Check context = inr st →
  size (vpcsOf st) = 1%nat ∧
  ∀ id n, vpcsOf st !! id = Some n →
    ec2.maxAzs n = 1 ∧
    ∃ sub, ec2.subnetConfiguration n = [sub] ∧
      ec2.subnetType sub = ec2.PUBLIC ∧
      cidrPrefixLength (ec2.cidr n) = Some (ec2.cidrMask sub) ∧
      ec2.cidrMask sub = 23.
Proof.
  intros H. finished H v. split; [vm_compute; reflexivity|].
  intros id n Hl. the_only Hl. split; [reflexivity|].
  eexists. split; [reflexivity|]. split; [reflexivity|].
  split; [vm_compute; reflexivity|reflexivity].
Qed.

(** [C3] The stack has one pipeline, of exactly three stages named Source,
    Build and Deploy in that order, one action each: the source action reads
    a source repository of the stack, the build action takes the source
    action's output as its input, and the last action deploys to a service
    of the stack. *)
Theorem pipeline_source_build_deploy (context : gmap string JsValue) (st : Stack) :
  CdkTestStack stackCheck ipv4Check context = inr st →
  size (pipelinesOf st) = 1%nat ∧
  ∀ id p, pipelinesOf st !! id = Some p →
    codepipeline.stageName <$> codepipeline.stages p = ["Source"; "Build"; "Deploy"] ∧
    ∃ a1 repo out a2 proj outs a3 svc inp,
      codepipeline.actions <$> codepipeline.stages p =
        [ [codepipeline.CodeCommitSourceAction a1 repo out];
          [codepipeline.CodeBuildAction a2 proj out outs];
          [codepipeline.EcsDeployAction a3 svc inp] ] ∧
      is_Some (sourceRepositoriesOf st !! repo) ∧
      is_Some (buildProjectsOf st !! proj) ∧
      is_Some (servicesOf st !! svc).
Proof.
  intros H. finished H v. split; [vm_compute; reflexivity|].
  intros id p Hl. the_only Hl. split; [reflexivity|].
  do 9 eexists. split; [reflexivity|].
  repeat split; vm_compute; eexists; reflexivity.
Qed.

(** [C1] What the code does: the deploy stage's action takes as its input
    the very artifact the source action writes, and the build action
    declares no output artifact at all. *)
Theorem deploy_reads_source_output (context : gmap string JsValue) (st : Stack) :
  CdkTestStack stackCheck ipv4Check context = inr st →
  ∀ id p, pipelinesOf st !! id = Some p →
    ∃ a, stageInputs p "Deploy" = [a] ∧
      stageOutputs p "Source" = [a] ∧
      stageOutputs p "Build" = [].
Proof.
  intros H. finished H v. intros id p Hl. the_only Hl.
  eexists. repeat split; vm_compute; reflexivity.
Qed.

(** The manifest written by the build names a container that no task
    specification of the stack declares. *)
Lemma manifest_names_no_container (context : gmap string JsValue) (st : Stack) :
  CdkTestStack stackCheck ipv4Check context = inr st →
  ∀ id p cmd, buildProjectsOf st !! id = Some p →
    cmd ∈ script (codebuild.buildSpec p) → classify cmd = EmitManifest →
    contains "next-container-task" (literalText cmd) = true ∧
    ∀ tid t c, taskDefinitionsOf st !! tid = Some t → c ∈ ecs.containers t →
      contains (ecs.containerName c) (literalText cmd) = false.
Proof.
  intros H. finished H v. intros id p cmd Hl Hin Hstep. the_only Hl.
  unfold script in Hin; simpl in Hin.
  repeat (apply elem_of_cons in Hin as [->|Hin]; [try (vm_compute in Hstep; discriminate)|]).
  - split; [vm_compute; reflexivity|].
    intros tid t c Ht Hc. the_only Ht.
    apply list_elem_of_singleton in Hc as ->. vm_compute. reflexivity.
  - apply elem_of_nil in Hin. contradiction.
Qed.

(** [C2] as amended.  The stack has one build project.  Its script, read
    phase by phase, is twelve commands: a docker login fed by the registry
    password; the assignments of REPOSITORY_URI (the address of a registry of
    the stack), COMMIT_HASH (the first seven characters of the resolved source
    version) and IMAGE_TAG (COMMIT_HASH, or latest when that is empty); the
    installation of Node 16, of the dependencies, and the tests; the build of
    the image as the latest tag; its tagging with IMAGE_TAG; the push of the
    latest tag, then of the IMAGE_TAG tag; and a printf that writes
    imagedefinitions.json with the latest tag of the image as its imageUri.
    That file is the one declared artifact file.  Which registry the login
    names, and which container the manifest names, is left open here. *)
Theorem build_script_steps (context : gmap string JsValue) (st : Stack) :
  CdkTestStack stackCheck ipv4Check context = inr st →
  size (buildProjectsOf st) = 1%nat ∧
  ∀ id p, buildProjectsOf st !! id = Some p →
    (∃ login registry manifest,
       script (codebuild.buildSpec p) =
         [ login;
           [codebuild.Text "REPOSITORY_URI="; codebuild.RepositoryUri registry];
           sh "COMMIT_HASH=$(echo $CODEBUILD_RESOLVED_SOURCE_VERSION | cut -c 1-7)";
           sh "IMAGE_TAG=${COMMIT_HASH:=latest}";
           sh "n install 16";
           sh "npm install";
           sh "npm test";
           sh "docker build -t $REPOSITORY_URI:latest .";
           sh "docker tag $REPOSITORY_URI:latest $REPOSITORY_URI:$IMAGE_TAG";
           sh "docker push $REPOSITORY_URI:latest";
           sh "docker push $REPOSITORY_URI:$IMAGE_TAG";
           manifest ] ∧
       String.prefix
         "aws ecr get-login-password --region $AWS_DEFAULT_REGION | docker login --username AWS --password-stdin "
         (literalText login) = true ∧
       is_Some (registriesOf st !! registry) ∧
       String.prefix "printf '" (literalText manifest) = true ∧
       contains (dq +:+ "imageUri" +:+ dq +:+ ":" +:+ dq +:+ "%s" +:+ dq)
         (literalText manifest) = true ∧
       endsWith "}]' $REPOSITORY_URI:latest > imagedefinitions.json"
         (literalText manifest) = true) ∧
    classify <$> script (codebuild.buildSpec p) =
      [ LogIn; SetVariable; SetVariable; SetVariable; OtherStep; OtherStep; OtherStep;
        BuildImage; TagByCommit; PushLatest; PushCommitTag; EmitManifest ] ∧
    filter (λ k, isCoreStep k) (classify <$> script (codebuild.buildSpec p)) =
      [ LogIn; BuildImage; TagByCommit; PushLatest; PushCommitTag; EmitManifest ] ∧
    literalText <$> filter (λ c, classify c = OtherStep) (script (codebuild.buildSpec p)) =
      [ "n install 16"; "npm install"; "npm test" ] ∧
    codebuild.files (codebuild.artifacts (codebuild.buildSpec p)) = ["imagedefinitions.json"].
Proof.
  intros H. finished H v. split; [vm_compute; reflexivity|].
  intros id p Hl. the_only Hl. split.
  - eexists _, _, _. split; [reflexivity|].
    split; [vm_compute; reflexivity|].
    split; [vm_compute; eexists; reflexivity|].
    repeat split; vm_compute; reflexivity.
  - repeat split; vm_compute; reflexivity.
Qed.

(** [C9] The allow-listed address is the [myIPAddress] property of the
    context value under the key [env], read while the stack is constructed.
    Without a value under [env] construction throws and no stack is built:
    the exception is the toolkit's if it refuses the context, and otherwise
    the TypeError of reading a property of undefined.  A stack that was
    built had a value under [env], and its security group holds exactly the
    rule that admits that value's [myIPAddress] on TCP port 80. *)
Theorem address_read_from_context (context : gmap string JsValue) :
  (context !! "env" = None →
     (∃ e, CdkTestStack stackCheck ipv4Check context = inl e) ∧
     (stackCheck context = None →
        CdkTestStack stackCheck ipv4Check context =
          inl (TypeError "Cannot read properties of undefined (reading 'myIPAddress')"))) ∧
  (∀ st, CdkTestStack stackCheck ipv4Check context = inr st →
     ∃ env v g, context !! "env" = Some env ∧ getProp env "myIPAddress" = inr v ∧
       securityGroupsOf st !! "TestAPISecurityGroup" = Some g ∧
       ec2.ingressRules g = [ {| ec2.peer := ec2.ipv4 v; ec2.connection := ec2.tcp 80 |} ]).
Proof.
  split.
  - intros Hno.
    assert (allowListedAddress context =
              inl (TypeError "Cannot read properties of undefined (reading 'myIPAddress')"))
      as Hread.
    { unfold allowListedAddress, tryGetContext. rewrite Hno. reflexivity. }
    unfold CdkTestStack.
    destruct (stackCheck context) as [e|] eqn:Hstack.
    + split; [|discriminate].
      exists e. rewrite (constructor_refused _ _ _ Hstack). reflexivity.
    + rewrite (constructor_unreadable _ _ Hstack Hread).
      split; [eexists; reflexivity|reflexivity].
  - intros st H. finished H v.
    unfold allowListedAddress, tryGetContext in Hread.
    destruct (context !! "env") as [env|] eqn:Henv; [|discriminate].
    exists env, v. eexists. split; [reflexivity|]. split; [exact Hread|].
    split; [vm_compute; reflexivity|reflexivity].
Qed.

End Properties.

(** * The properties at a concrete deployment *)

Lemma service_starts_at_zero_witness :
  CdkTestStack contextAccepted literalIpv4Check ctx0 = inr (deployed address0) ∧
  size (servicesOf (deployed address0)) = 1%nat.
Proof.
  split; [vm_compute; reflexivity|].
  refine (proj1 (service_starts_at_zero contextAccepted literalIpv4Check ctx0 (deployed address0) _)).
  vm_compute. reflexivity.
Defined.

Lemma service_network_is_cluster_network_witness :
  CdkTestStack contextAccepted literalIpv4Check ctx0 = inr (deployed address0) ∧
  ∀ id svc, servicesOf (deployed address0) !! id = Some svc →
    ∀ g, g ∈ ecs.securityGroups svc →
      ∃ sg k, securityGroupsOf (deployed address0) !! g = Some sg ∧
        clustersOf (deployed address0) !! ecs.cluster svc = Some k ∧
        ec2.vpc sg = ecs.vpc k ∧
        is_Some (vpcsOf (deployed address0) !! ec2.vpc sg).
Proof.
  split; [vm_compute; reflexivity|].
  apply (service_network_is_cluster_network contextAccepted literalIpv4Check ctx0).
  vm_compute. reflexivity.
Defined.

Lemma service_security_group_allows_all_outbound_witness :
  CdkTestStack contextAccepted literalIpv4Check ctx0 = inr (deployed address0) ∧
  size (servicesOf (deployed address0)) = 1%nat ∧
  ∃ svc, servicesOf (deployed address0) !! "TestAPIService" = Some svc ∧
    ∃ g sg, ecs.securityGroups svc = [g] ∧
      securityGroupsOf (deployed address0) !! g = Some sg ∧
      ec2.allowAllOutbound sg = true ∧
      ec2.connection <$> ec2.ingressRules sg = [ec2.tcp 80].
Proof.
  pose proof (service_security_group_allows_all_outbound contextAccepted literalIpv4Check
                ctx0 (deployed address0)) as Hthm.
  assert (CdkTestStack contextAccepted literalIpv4Check ctx0 = inr (deployed address0))
    as Hbuilt by (vm_compute; reflexivity).
  destruct (Hthm Hbuilt) as [Hsize Hall].
  split; [exact Hbuilt|]. split; [exact Hsize|].
  eexists. split; [vm_compute; reflexivity|].
  apply (Hall "TestAPIService"). vm_compute. reflexivity.
Defined.

Lemma ingress_only_port_80_witness :
  CdkTestStack contextAccepted literalIpv4Check ctx0 = inr (deployed address0) ∧
  ∃ v, allowListedAddress ctx0 = inr v ∧
    size (securityGroupsOf (deployed address0)) = 1%nat ∧
    ∀ id g, securityGroupsOf (deployed address0) !! id = Some g →
      ec2.ingressRules g = [ {| ec2.peer := ec2.ipv4 v; ec2.connection := ec2.tcp 80 |} ] ∧
      ∀ proto dst, admitsInbound g proto dst = true ↔ proto = ec2.TCP ∧ dst = 80.
Proof.
  split; [vm_compute; reflexivity|].
  apply (ingress_only_port_80 contextAccepted literalIpv4Check ctx0).
  vm_compute. reflexivity.
Defined.

Lemma task_specification_shape_witness :
  CdkTestStack contextAccepted literalIpv4Check ctx0 = inr (deployed address0) ∧
  size (taskDefinitionsOf (deployed address0)) = 1%nat.
Proof.
  split; [vm_compute; reflexivity|].
  refine (proj1 (task_specification_shape contextAccepted literalIpv4Check ctx0 (deployed address0) _)).
  vm_compute. reflexivity.
Defined.

Lemma network_one_public_range_witness :
  CdkTestStack contextAccepted literalIpv4Check ctx0 = inr (deployed address0) ∧
  size (vpcsOf (deployed address0)) = 1%nat.
Proof.
  split; [vm_compute; reflexivity|].
  refine (proj1 (network_one_public_range contextAccepted literalIpv4Check ctx0 (deployed address0) _)).
  vm_compute. reflexivity.
Defined.

Lemma pipeline_source_build_deploy_witness :
  CdkTestStack contextAccepted literalIpv4Check ctx0 = inr (deployed address0) ∧
  size (pipelinesOf (deployed address0)) = 1%nat.
Proof.
  split; [vm_compute; reflexivity|].
  refine (proj1 (pipeline_source_build_deploy contextAccepted literalIpv4Check ctx0 (deployed address0) _)).
  vm_compute. reflexivity.
Defined.

Lemma deploy_reads_source_output_witness :
  CdkTestStack contextAccepted literalIpv4Check ctx0 = inr (deployed address0) ∧
  ∀ id p, pipelinesOf (deployed address0) !! id = Some p →
    ∃ a, stageInputs p "Deploy" = [a] ∧
      stageOutputs p "Source" = [a] ∧
      stageOutputs p "Build" = [].
Proof.
  split; [vm_compute; reflexivity|].
  apply (deploy_reads_source_output contextAccepted literalIpv4Check ctx0).
  vm_compute. reflexivity.
Defined.

Lemma build_script_steps_witness :
  CdkTestStack contextAccepted literalIpv4Check ctx0 = inr (deployed address0) ∧
  size (buildProjectsOf (deployed address0)) = 1%nat ∧
  ∃ p, buildProjectsOf (deployed address0) !! "TestAPIBuild" = Some p ∧
    codebuild.files (codebuild.artifacts (codebuild.buildSpec p)) = ["imagedefinitions.json"].
Proof.
  pose proof (build_script_steps contextAccepted literalIpv4Check
                ctx0 (deployed address0)) as Hthm.
  assert (CdkTestStack contextAccepted literalIpv4Check ctx0 = inr (deployed address0))
    as Hbuilt by (vm_compute; reflexivity).
  destruct (Hthm Hbuilt) as [Hsize Hall].
  split; [exact Hbuilt|]. split; [exact Hsize|].
  eexists. split; [vm_compute; reflexivity|].
  apply (Hall "TestAPIBuild"). vm_compute. reflexivity.
Defined.

Lemma address_read_from_context_witness :
  ((∅ : gmap string JsValue) !! "env" = None ∧
   contextAccepted ∅ = None ∧
   CdkTestStack contextAccepted literalIpv4Check ∅ =
     inl (TypeError "Cannot read properties of undefined (reading 'myIPAddress')")) ∧
  (CdkTestStack contextAccepted literalIpv4Check ctx0 = inr (deployed address0) ∧
   ∃ env v g, ctx0 !! "env" = Some env ∧ getProp env "myIPAddress" = inr v ∧
     securityGroupsOf (deployed address0) !! "TestAPISecurityGroup" = Some g ∧
     ec2.ingressRules g = [ {| ec2.peer := ec2.ipv4 v; ec2.connection := ec2.tcp 80 |} ]).
Proof.
  split.
  - split; [reflexivity|]. split; [reflexivity|].
    apply (proj1 (address_read_from_context contextAccepted literalIpv4Check ∅));
      reflexivity.
  - split; [vm_compute; reflexivity|].
    apply (proj2 (address_read_from_context contextAccepted literalIpv4Check ctx0)).
    vm_compute. reflexivity.
Defined.

(** With a deployer's address supplied, the stack is built, and the script of
    its build project is not the bare six steps: it has twelve commands. *)
Lemma build_script_not_six_steps :
  ∃ p, CdkTestStack contextAccepted literalIpv4Check ctx0 = inr (deployed address0) ∧
    buildProjectsOf (deployed address0) !! "TestAPIBuild" = Some p ∧
    ¬ SixStepScript (codebuild.buildSpec p).
Proof.
  eexists. split; [vm_compute; reflexivity|]. split; [vm_compute; reflexivity|].
  intros [Hsteps _]. vm_compute in Hsteps. discriminate.
Qed.

(** * Further properties of the stack *)

Section Further.

Variable stackCheck : gmap string JsValue → option Exn.
Variable ipv4Check : JsValue → option Exn.

Ltac built H v :=
  let Hread := fresh "Hread" in
  let Haccept := fresh "Haccept" in
  let Hst := fresh "Hst" in
  destruct (CdkTestStack_returns _ _ _ _ H) as (v & Hread & Haccept & Hst);
  subst.

Ltac sole Hl :=
  apply elem_of_map_to_list in Hl; vm_compute in Hl;
  apply list_elem_of_singleton in Hl; injection Hl as -> ->.

(** The outcome of construction in this embedding, by cases on the
    toolkit's check of the context, the read of the address and the
    toolkit's check of the address. *)
Lemma CdkTestStack_outcome (context : gmap string JsValue) :
  CdkTestStack stackCheck ipv4Check context =
    match stackCheck context with
    | Some e => inl e
    | None =>
        match allowListedAddress context with
        | inl e => inl e
        | inr v =>
            match ipv4Check v with
            | Some e => inl e
            | None => inr (deployed v)
            end
        end
    end.
Proof.
  destruct (stackCheck context) as [e|] eqn:Hstack.
  - unfold CdkTestStack. rewrite (constructor_refused _ _ _ _ _ Hstack). reflexivity.
  - destruct (allowListedAddress context) as [e|v] eqn:Hread.
    + unfold CdkTestStack. rewrite (constructor_unreadable _ _ _ _ Hstack Hread).
      reflexivity.
    + destruct (ipv4Check v) as [e|] eqn:Hcheck.
      * unfold CdkTestStack.
        rewrite (constructor_reads_address _ _ _ _ _ Hstack Hread), Hcheck,
          constructor_rejected.
        reflexivity.
      * apply CdkTestStack_accepted; assumption.
Qed.

(** A [null] under [env] makes construction throw, as a missing value does:
    no stack is built, and when the toolkit accepts the context the
    exception is the TypeError of reading a property of null. *)
Theorem null_environment_throws (context : gmap string JsValue) :
  context !! "env" = Some JNull →
  (∃ e, CdkTestStack stackCheck ipv4Check context = inl e) ∧
  (stackCheck context = None →
     CdkTestStack stackCheck ipv4Check context =
       inl (TypeError "Cannot read properties of null (reading 'myIPAddress')")).
Proof.
  intros Henv. rewrite CdkTestStack_outcome.
  unfold allowListedAddress, tryGetContext. rewrite Henv. simpl.
  destruct (stackCheck context) as [e|].
  - split; [eexists; reflexivity|discriminate].
  - split; [eexists; reflexivity|reflexivity].
Qed.

Lemma ownProperty_absent (props : list (string * JsValue)) (key : string) :
  forallb (λ kv, negb (String.eqb (fst kv) key)) props = true →
  ownProperty props key = JUndefined.
Proof.
  induction props as [|[k v] rest IH]; simpl; [reflexivity|].
  intros Hall. apply andb_true_iff in Hall as [Hk Hrest].
  apply negb_true_iff in Hk. rewrite Hk. apply IH, Hrest.
Qed.

(** The constructor does not check the address itself.  When the toolkit
    accepts the context and [env] is there but has no [myIPAddress] to read,
    [undefined] goes to [Peer.ipv4], and the outcome is the toolkit's verdict
    on [undefined]. *)
Theorem missing_address_reaches_toolkit (context : gmap string JsValue) (env : JsValue) :
  stackCheck context = None →
  context !! "env" = Some env → lacksAddress env = true →
  CdkTestStack stackCheck ipv4Check context =
    match ipv4Check JUndefined with
    | Some e => inl e
    | None => inr (deployed JUndefined)
    end.
Proof.
  intros Hstack Henv Hlacks. rewrite CdkTestStack_outcome, Hstack.
  unfold allowListedAddress, tryGetContext. rewrite Henv. simpl.
  destruct env; simpl in *; try discriminate; try reflexivity.
  rewrite (ownProperty_absent _ _ Hlacks). reflexivity.
Qed.

(** The read of the address throws exactly when [env] is missing, [undefined]
    or [null]. *)
Theorem address_unreadable_iff (context : gmap string JsValue) :
  (∃ e, allowListedAddress context = inl e) ↔
  context !! "env" = None ∨ context !! "env" = Some JUndefined ∨ context !! "env" = Some JNull.
Proof.
  unfold allowListedAddress, tryGetContext.
  destruct (context !! "env") as [[]|]; simpl; split;
    try (intros [e He]; discriminate);
    try (intros [?|[?|?]]; discriminate);
    try (intros _; eexists; reflexivity); auto.
Qed.

End Further.

Section Wiring.

Variable stackCheck : gmap string JsValue → option Exn.
Variable ipv4Check : JsValue → option Exn.

Ltac built H v :=
  let Hread := fresh "Hread" in
  let Haccept := fresh "Haccept" in
  let Hst := fresh "Hst" in
  destruct (CdkTestStack_returns _ _ _ _ H) as (v & Hread & Haccept & Hst);
  subst.

Ltac sole Hl :=
  apply elem_of_map_to_list in Hl; vm_compute in Hl;
  apply list_elem_of_singleton in Hl; injection Hl as -> ->.

(** Every reference held by a construct of a built stack names a construct
    of the stack of the expected kind, and every artifact an action uses was
    allocated. *)
Theorem references_resolve (context : gmap string JsValue) (st : Stack) :
  CdkTestStack stackCheck ipv4Check context = inr st →
  ∀ id c, children st !! id = Some c → resolves st c = true.
Proof.
  intros H. built H v. intros id c Hl.
  apply elem_of_map_to_list in Hl.
  assert (forallb (λ kv, resolves (deployed v) (snd kv)) (map_to_list (children (deployed v)))
          = true) as Hall by (vm_compute; reflexivity).
  rewrite forallb_forall in Hall.
  apply list_elem_of_In in Hl. exact (Hall _ Hl).
Qed.

(** The task specification runs and is launched under one and the same role:
    assumed by the container service and carrying the managed task-execution
    policy, which both references see although it was attached after the
    role was made. *)
Theorem task_roles_are_one_role (context : gmap string JsValue) (st : Stack) :
  CdkTestStack stackCheck ipv4Check context = inr st →
  ∀ id t, taskDefinitionsOf st !! id = Some t →
    ecs.executionRole t = ecs.taskRole t ∧
    ∃ r, rolesOf st !! ecs.taskRole t = Some r ∧
      iam.assumedBy r = iam.ServicePrincipal "ecs-tasks.amazonaws.com" ∧
      iam.managedPolicies r =
        [iam.fromAwsManagedPolicyName "service-role/AmazonECSTaskExecutionRolePolicy"].
Proof.
  intros H. built H v. intros id t Hl. sole Hl.
  split; [reflexivity|]. eexists. split; [vm_compute; reflexivity|].
  split; reflexivity.
Qed.

(** The build project runs under a role of its own, apart from the task
    role and assumed by the build service; among that role's statements is
    the one the constructor adds, allowing the three actions that read
    images from a registry, on every resource. *)
Theorem build_role_may_read_images (context : gmap string JsValue) (st : Stack) :
  CdkTestStack stackCheck ipv4Check context = inr st →
  ∀ id p, buildProjectsOf st !! id = Some p →
    (∀ tid t, taskDefinitionsOf st !! tid = Some t → codebuild.role p ≠ ecs.taskRole t) ∧
    ∃ r s, rolesOf st !! codebuild.role p = Some r ∧
      iam.assumedBy r = iam.ServicePrincipal "codebuild.amazonaws.com" ∧
      s ∈ iam.statements r ∧
      iam.actions s = ["ecr:GetDownloadUrlForLayer"; "ecr:BatchGetImage";
                       "ecr:BatchCheckLayerAvailability"] ∧
      iam.resources s = ["*"].
Proof.
  intros H. built H v. intros id p Hl. sole Hl. split.
  - intros tid t Ht. sole Ht. discriminate.
  - eexists _, _. split; [vm_compute; reflexivity|].
    split; [reflexivity|]. split; [apply list_elem_of_singleton; reflexivity|].
    split; reflexivity.
Qed.

(** The build script takes its registry address from the very registry the
    task's container pulls its image from. *)
Theorem build_pushes_where_task_pulls (context : gmap string JsValue) (st : Stack) :
  CdkTestStack stackCheck ipv4Check context = inr st →
  ∀ id p tid t c, buildProjectsOf st !! id = Some p →
    taskDefinitionsOf st !! tid = Some t → c ∈ ecs.containers t →
    ∀ cmd, cmd ∈ script (codebuild.buildSpec p) → assigns "REPOSITORY_URI" cmd = true →
      match ecs.image c with
      | ecs.fromEcrRepository r => splicedRegistries cmd = [r]
      end.
Proof.
  intros H. built H v. intros id p tid t c Hp Ht Hc cmd Hin Hassign.
  sole Hp. sole Ht. apply list_elem_of_singleton in Hc as ->.
  unfold script in Hin; simpl in Hin.
  repeat (apply elem_of_cons in Hin as [->|Hin];
          [first [vm_compute in Hassign; discriminate | reflexivity]|]).
  apply elem_of_nil in Hin. contradiction.
Qed.

(** In VPC network mode a container's host port must be its container port:
    every port mapping of the stack keeps to that, over TCP, and every
    container is essential. *)
Theorem host_port_is_container_port (context : gmap string JsValue) (st : Stack) :
  CdkTestStack stackCheck ipv4Check context = inr st →
  ∀ id t c, taskDefinitionsOf st !! id = Some t → c ∈ ecs.containers t →
    ecs.networkMode t = ecs.AWS_VPC ∧
    ecs.compatibility t = ecs.FARGATE ∧
    ecs.essential c = true ∧
    ∀ m, m ∈ ecs.portMappings c →
      ecs.hostPort m = ecs.containerPort m ∧ ecs.protocol m = ecs.TCP.
Proof.
  intros H. built H v. intros id t c Ht Hc. sole Ht.
  apply list_elem_of_singleton in Hc as ->.
  repeat (split; [reflexivity|]).
  intros m Hm. apply list_elem_of_singleton in Hm as ->. split; reflexivity.
Qed.

(** Artifacts flow forward through the pipeline: whatever an action reads
    was written by an action of a strictly earlier stage. *)
Theorem artifacts_flow_forward (context : gmap string JsValue) (st : Stack) :
  CdkTestStack stackCheck ipv4Check context = inr st →
  ∀ id p i s a x, pipelinesOf st !! id = Some p →
    codepipeline.stages p !! i = Some s → a ∈ codepipeline.actions s →
    x ∈ codepipeline.actionInputs a →
    ∃ j s' a', (j < i)%nat ∧ codepipeline.stages p !! j = Some s' ∧
      a' ∈ codepipeline.actions s' ∧ x ∈ codepipeline.actionOutputs a'.
Proof.
  intros H. built H v. intros id p i s a x Hp Hs Ha Hx. sole Hp.
  destruct i as [|[|[|i]]]; simpl in Hs; try discriminate;
    injection Hs as <-; apply list_elem_of_singleton in Ha as ->; simpl in Hx.
  - apply elem_of_nil in Hx. contradiction.
  - apply list_elem_of_singleton in Hx as ->.
    exists 0%nat. eexists _, _. split; [lia|]. split; [reflexivity|].
    split; [apply list_elem_of_singleton; reflexivity|].
    simpl. apply list_elem_of_singleton. reflexivity.
  - apply list_elem_of_singleton in Hx as ->.
    exists 0%nat. eexists _, _. split; [lia|]. split; [reflexivity|].
    split; [apply list_elem_of_singleton; reflexivity|].
    simpl. apply list_elem_of_singleton. reflexivity.
Qed.

(** No command of the build script expands one of the script's own variables
    before the command that assigns it. *)
Theorem script_variables_assigned_before_use (context : gmap string JsValue) (st : Stack) :
  CdkTestStack stackCheck ipv4Check context = inr st →
  ∀ id p i cmd var, buildProjectsOf st !! id = Some p →
    script (codebuild.buildSpec p) !! i = Some cmd →
    var ∈ ["REPOSITORY_URI"; "COMMIT_HASH"; "IMAGE_TAG"] →
    expands var cmd = true →
    ∃ j cmd', (j < i)%nat ∧ script (codebuild.buildSpec p) !! j = Some cmd' ∧
      assigns var cmd' = true.
Proof.
  intros H. built H v. intros id p i cmd var Hp Hi Hvar Huse. sole Hp.
  unfold script in *; simpl in Hi |- *.
  assert (var = "REPOSITORY_URI" ∨ var = "COMMIT_HASH" ∨ var = "IMAGE_TAG") as Hcases.
  { repeat (apply elem_of_cons in Hvar as [->|Hvar]; [auto|]).
    apply elem_of_nil in Hvar. contradiction. }
  do 12 (destruct i as [|i];
         [ simpl in Hi; injection Hi as <-;
           destruct Hcases as [->|[->| ->]];
           first [ vm_compute in Huse; discriminate
                 | exists 1%nat; eexists; split; [lia|]; split; reflexivity
                 | exists 2%nat; eexists; split; [lia|]; split; reflexivity
                 | exists 3%nat; eexists; split; [lia|]; split; reflexivity ]
         | simpl in Hi ]).
  destruct i; discriminate.
Qed.

(** The log-in command names no registry: no registry address is spliced
    into it and it expands none of the script's variables. *)
Theorem login_names_no_registry (context : gmap string JsValue) (st : Stack) :
  CdkTestStack stackCheck ipv4Check context = inr st →
  ∀ id p cmd, buildProjectsOf st !! id = Some p →
    cmd ∈ script (codebuild.buildSpec p) → classify cmd = LogIn →
    splicedRegistries cmd = [] ∧
    ∀ var, var ∈ ["REPOSITORY_URI"; "COMMIT_HASH"; "IMAGE_TAG"] → expands var cmd = false.
Proof.
  intros H. built H v. intros id p cmd Hp Hin Hstep. sole Hp.
  unfold script in Hin; simpl in Hin.
  repeat (apply elem_of_cons in Hin as [->|Hin]; [try (vm_compute in Hstep; discriminate)|]).
  - split; [reflexivity|]. intros var Hvar.
    repeat (apply elem_of_cons in Hvar as [->|Hvar]; [vm_compute; reflexivity|]).
    apply elem_of_nil in Hvar. contradiction.
  - apply elem_of_nil in Hin. contradiction.
Qed.

(** The manifest names the image by its latest tag, never by the commit tag,
    and it is the last command of the script. *)
Theorem manifest_names_latest_tag (context : gmap string JsValue) (st : Stack) :
  CdkTestStack stackCheck ipv4Check context = inr st →
  ∀ id p cmd, buildProjectsOf st !! id = Some p →
    cmd ∈ script (codebuild.buildSpec p) → classify cmd = EmitManifest →
    contains "$REPOSITORY_URI:latest" (literalText cmd) = true ∧
    expands "IMAGE_TAG" cmd = false ∧
    expands "COMMIT_HASH" cmd = false ∧
    last (script (codebuild.buildSpec p)) = Some cmd.
Proof.
  intros H. built H v. intros id p cmd Hp Hin Hstep. sole Hp.
  unfold script in Hin; simpl in Hin.
  repeat (apply elem_of_cons in Hin as [->|Hin]; [try (vm_compute in Hstep; discriminate)|]).
  - repeat split; vm_compute; reflexivity.
  - apply elem_of_nil in Hin. contradiction.
Qed.

End Wiring.

(** * The further properties at concrete deployments *)

Lemma null_environment_throws_witness :
  ({[ "env" := JNull ]} : gmap string JsValue) !! "env" = Some JNull ∧
  contextAccepted {[ "env" := JNull ]} = None ∧
  CdkTestStack contextAccepted literalIpv4Check {[ "env" := JNull ]} =
    inl (TypeError "Cannot read properties of null (reading 'myIPAddress')").
Proof.
  split; [reflexivity|]. split; [reflexivity|].
  apply (null_environment_throws contextAccepted literalIpv4Check {[ "env" := JNull ]});
    vm_compute; reflexivity.
Defined.

Lemma missing_address_reaches_toolkit_witness :
  contextAccepted {[ "env" := JObj [("region", JStr "eu-west-1")] ]} = None ∧
  ({[ "env" := JObj [("region", JStr "eu-west-1")] ]} : gmap string JsValue) !! "env"
    = Some (JObj [("region", JStr "eu-west-1")]) ∧
  lacksAddress (JObj [("region", JStr "eu-west-1")]) = true ∧
  CdkTestStack contextAccepted literalIpv4Check
      {[ "env" := JObj [("region", JStr "eu-west-1")] ]} =
    inl (TypeError "Cannot read properties of undefined (reading 'match')").
Proof.
  split; [reflexivity|]. split; [reflexivity|]. split; [reflexivity|].
  apply (missing_address_reaches_toolkit contextAccepted literalIpv4Check _
           (JObj [("region", JStr "eu-west-1")])); reflexivity.
Defined.

Lemma references_resolve_witness :
  CdkTestStack contextAccepted literalIpv4Check ctx0 = inr (deployed address0) ∧
  ∃ c, children (deployed address0) !! "TestAPIPipeline" = Some c ∧
    resolves (deployed address0) c = true.
Proof.
  split; [vm_compute; reflexivity|].
  eexists. split; [vm_compute; reflexivity|].
  apply (references_resolve contextAccepted literalIpv4Check ctx0 (deployed address0)) with "TestAPIPipeline";
    vm_compute; reflexivity.
Defined.

Lemma task_roles_are_one_role_witness :
  CdkTestStack contextAccepted literalIpv4Check ctx0 = inr (deployed address0) ∧
  ∃ t, taskDefinitionsOf (deployed address0) !! "TestAPITaskDefinition" = Some t ∧
    ecs.executionRole t = ecs.taskRole t.
Proof.
  split; [vm_compute; reflexivity|].
  eexists. split; [vm_compute; reflexivity|].
  refine (proj1 (task_roles_are_one_role contextAccepted literalIpv4Check ctx0
                   (deployed address0) _ "TestAPITaskDefinition" _ _));
    vm_compute; reflexivity.
Defined.

Lemma build_role_may_read_images_witness :
  CdkTestStack contextAccepted literalIpv4Check ctx0 = inr (deployed address0) ∧
  ∃ p, buildProjectsOf (deployed address0) !! "TestAPIBuild" = Some p ∧
    ∀ tid t, taskDefinitionsOf (deployed address0) !! tid = Some t →
      codebuild.role p ≠ ecs.taskRole t.
Proof.
  split; [vm_compute; reflexivity|].
  eexists. split; [vm_compute; reflexivity|].
  refine (proj1 (build_role_may_read_images contextAccepted literalIpv4Check ctx0
                   (deployed address0) _ "TestAPIBuild" _ _));
    vm_compute; reflexivity.
Defined.

Lemma build_pushes_where_task_pulls_witness :
  CdkTestStack contextAccepted literalIpv4Check ctx0 = inr (deployed address0) ∧
  ∀ id p tid t c, buildProjectsOf (deployed address0) !! id = Some p →
    taskDefinitionsOf (deployed address0) !! tid = Some t → c ∈ ecs.containers t →
    ∀ cmd, cmd ∈ script (codebuild.buildSpec p) → assigns "REPOSITORY_URI" cmd = true →
      match ecs.image c with
      | ecs.fromEcrRepository r => splicedRegistries cmd = [r]
      end.
Proof.
  split; [vm_compute; reflexivity|].
  apply (build_pushes_where_task_pulls contextAccepted literalIpv4Check ctx0). vm_compute. reflexivity.
Defined.

Lemma host_port_is_container_port_witness :
  CdkTestStack contextAccepted literalIpv4Check ctx0 = inr (deployed address0) ∧
  ∀ id t c, taskDefinitionsOf (deployed address0) !! id = Some t → c ∈ ecs.containers t →
    ecs.networkMode t = ecs.AWS_VPC ∧
    ecs.compatibility t = ecs.FARGATE ∧
    ecs.essential c = true ∧
    ∀ m, m ∈ ecs.portMappings c →
      ecs.hostPort m = ecs.containerPort m ∧ ecs.protocol m = ecs.TCP.
Proof.
  split; [vm_compute; reflexivity|].
  apply (host_port_is_container_port contextAccepted literalIpv4Check ctx0). vm_compute. reflexivity.
Defined.

Lemma artifacts_flow_forward_witness :
  CdkTestStack contextAccepted literalIpv4Check ctx0 = inr (deployed address0) ∧
  ∀ id p i s a x, pipelinesOf (deployed address0) !! id = Some p →
    codepipeline.stages p !! i = Some s → a ∈ codepipeline.actions s →
    x ∈ codepipeline.actionInputs a →
    ∃ j s' a', (j < i)%nat ∧ codepipeline.stages p !! j = Some s' ∧
      a' ∈ codepipeline.actions s' ∧ x ∈ codepipeline.actionOutputs a'.
Proof.
  split; [vm_compute; reflexivity|].
  apply (artifacts_flow_forward contextAccepted literalIpv4Check ctx0). vm_compute. reflexivity.
Defined.

Lemma script_variables_assigned_before_use_witness :
  CdkTestStack contextAccepted literalIpv4Check ctx0 = inr (deployed address0) ∧
  ∀ id p i cmd var, buildProjectsOf (deployed address0) !! id = Some p →
    script (codebuild.buildSpec p) !! i = Some cmd →
    var ∈ ["REPOSITORY_URI"; "COMMIT_HASH"; "IMAGE_TAG"] →
    expands var cmd = true →
    ∃ j cmd', (j < i)%nat ∧ script (codebuild.buildSpec p) !! j = Some cmd' ∧
      assigns var cmd' = true.
Proof.
  split; [vm_compute; reflexivity|].
  apply (script_variables_assigned_before_use contextAccepted literalIpv4Check ctx0). vm_compute. reflexivity.
Defined.

Lemma manifest_names_no_container_witness :
  CdkTestStack contextAccepted literalIpv4Check ctx0 = inr (deployed address0) ∧
  ∀ id p cmd, buildProjectsOf (deployed address0) !! id = Some p →
    cmd ∈ script (codebuild.buildSpec p) → classify cmd = EmitManifest →
    contains "next-container-task" (literalText cmd) = true ∧
    ∀ tid t c, taskDefinitionsOf (deployed address0) !! tid = Some t → c ∈ ecs.containers t →
      contains (ecs.containerName c) (literalText cmd) = false.
Proof.
  split; [vm_compute; reflexivity|].
  apply (manifest_names_no_container contextAccepted literalIpv4Check ctx0). vm_compute. reflexivity.
Defined.

Lemma login_names_no_registry_witness :
  CdkTestStack contextAccepted literalIpv4Check ctx0 = inr (deployed address0) ∧
  ∀ id p cmd, buildProjectsOf (deployed address0) !! id = Some p →
    cmd ∈ script (codebuild.buildSpec p) → classify cmd = LogIn →
    splicedRegistries cmd = [] ∧
    ∀ var, var ∈ ["REPOSITORY_URI"; "COMMIT_HASH"; "IMAGE_TAG"] → expands var cmd = false.
Proof.
  split; [vm_compute; reflexivity|].
  apply (login_names_no_registry contextAccepted literalIpv4Check ctx0). vm_compute. reflexivity.
Defined.

Lemma manifest_names_latest_tag_witness :
  CdkTestStack contextAccepted literalIpv4Check ctx0 = inr (deployed address0) ∧
  ∀ id p cmd, buildProjectsOf (deployed address0) !! id = Some p →
    cmd ∈ script (codebuild.buildSpec p) → classify cmd = EmitManifest →
    contains "$REPOSITORY_URI:latest" (literalText cmd) = true ∧
    expands "IMAGE_TAG" cmd = false ∧
    expands "COMMIT_HASH" cmd = false ∧
    last (script (codebuild.buildSpec p)) = Some cmd.
Proof.
  split; [vm_compute; reflexivity|].
  apply (manifest_names_latest_tag contextAccepted literalIpv4Check ctx0). vm_compute. reflexivity.
Defined.
